(** * reproduction/sample.py: the [Calculator] reference-count fixture

    The script defines a class [Calculator] with three methods
    ([unused_method], [add], [multiply]) and a module body that builds one
    instance and calls [add] twice and [multiply] three times, binding the
    results to [result1] .. [result5].

    The methods are one-liners over Python's binary [+] and [*], so the
    meaning of the program is the meaning of these two operators on the
    arguments it is given.  The development therefore has three layers:

    - [Host]: the fragment of the Python object model the script touches:
      values ([int], [float], [str], [None], instances of [Calculator]),
      the binary-operator dispatch of [+] and [*] and the [==] comparison;
    - [Sample]: the class and the module body, written in a state and
      exception monad over the interpreter state (module globals, heap of
      instances, log of method invocations);
    - the properties of the script. *)

From Stdlib Require Import ZArith Lia Bool List.
From Stdlib Require Import Floats.SpecFloat.
From stdpp Require Import base option list strings gmap.

Local Open Scope string_scope.
Local Open Scope Z_scope.

(** ** Python values and the operators [+], [*] and [==] *)

Module Host.

(** Built-in exceptions the operators and the name and attribute lookups of
    the script can raise. *)
Inductive exn : Type :=
| TypeError
| OverflowError
| AttributeError
| NameError
| SystemError.

(** Heap addresses of class instances. *)
Definition loc : Type := nat.

(** Python [int] is unbounded: [Z].  Python [float] is IEEE-754 binary64,
    given by the [spec_float] of the standard library (one NaN, no payload).
    [str] is a sequence of characters.  [VClass] is the class object
    [Calculator], the only class of the script, and [VObj l] is a reference
    to the instance stored at address [l]. *)
Inductive value : Type :=
| VNone
| VInt (n : Z)
| VFloat (f : spec_float)
| VStr (s : string)
| VClass
| VObj (l : loc).

(** Outcome of an evaluation: an exception or a value. *)
Definition result (A : Type) : Type := (exn + A)%type.

Definition Ok {A} (x : A) : result A := inr x.
Definition Raise {A} (e : exn) : result A := inl e.

(** The numeric values of the specification: integers and floats. *)
Definition is_numeric (v : value) : bool :=
  match v with
  | VInt _ | VFloat _ => true
  | _ => false
  end.

Definition is_nan (v : value) : bool :=
  match v with
  | VFloat S754_nan => true
  | _ => false
  end.

(** *** binary64 arithmetic *)

Definition DBL_MANT_DIG : Z := 53.
Definition DBL_MAX_EXP : Z := 1024.
Definition PY_SSIZE_T_MAX : Z := 2 ^ 63 - 1.

Definition float_plus : spec_float -> spec_float -> spec_float :=
  SFadd DBL_MANT_DIG DBL_MAX_EXP.

Definition float_times : spec_float -> spec_float -> spec_float :=
  SFmul DBL_MANT_DIG DBL_MAX_EXP.

(** [PyLong_AsDouble]: the nearest double, ties to even; an integer whose
    rounding leaves the finite range raises [OverflowError]. *)
Definition PyLong_AsDouble (n : Z) : result spec_float :=
  match binary_normalize DBL_MANT_DIG DBL_MAX_EXP n 0 false with
  | S754_infinity _ => Raise OverflowError
  | f => Ok f
  end.

(** *** Number slots

    A slot either declines its operands ([NotImplemented]) or finishes with
    a result. *)
Inductive slot_result : Type :=
| NotImplemented
| Done (r : result value).

(** [CONVERT_TO_DOUBLE] of floatobject.c: a float is taken as it is, an int
    is converted, anything else makes the slot decline. *)
Definition convert_to_double (v : value) : option (result spec_float) :=
  match v with
  | VFloat f => Some (Ok f)
  | VInt n => Some (PyLong_AsDouble n)
  | _ => None
  end.

Definition float_binop (op : spec_float -> spec_float -> spec_float)
    (v w : value) : slot_result :=
  match convert_to_double v with
  | None => NotImplemented
  | Some (inl e) => Done (Raise e)
  | Some (inr a) =>
      match convert_to_double w with
      | None => NotImplemented
      | Some (inl e) => Done (Raise e)
      | Some (inr b) => Done (Ok (VFloat (op a b)))
      end
  end.

Definition float_add : value -> value -> slot_result := float_binop float_plus.
Definition float_mul : value -> value -> slot_result := float_binop float_times.

(** [long_add] and [long_mul]: both operands must be ints ([CHECK_BINOP]). *)
Definition long_binop (op : Z -> Z -> Z) (v w : value) : slot_result :=
  match v, w with
  | VInt a, VInt b => Done (Ok (VInt (op a b)))
  | _, _ => NotImplemented
  end.

Definition long_add : value -> value -> slot_result := long_binop Z.add.
Definition long_mul : value -> value -> slot_result := long_binop Z.mul.

(** Types of the values and their slot tables.  [Calculator] defines none of
    [__add__], [__radd__], [__mul__], [__rmul__], so its instances have no
    number slot; neither have [None] and the class object itself. *)
Inductive pytype : Type := TNone | TInt | TFloat | TStr | TType | TCalculator.

Definition type_of (v : value) : pytype :=
  match v with
  | VNone => TNone
  | VInt _ => TInt
  | VFloat _ => TFloat
  | VStr _ => TStr
  | VClass => TType
  | VObj _ => TCalculator
  end.

Definition pytype_eqb (t u : pytype) : bool :=
  match t, u with
  | TNone, TNone | TInt, TInt | TFloat, TFloat | TStr, TStr | TType, TType
  | TCalculator, TCalculator => true
  | _, _ => false
  end.

Definition binaryfunc : Type := value -> value -> slot_result.

Definition nb_add (t : pytype) : option binaryfunc :=
  match t with
  | TInt => Some long_add
  | TFloat => Some float_add
  | _ => None
  end.

Definition nb_multiply (t : pytype) : option binaryfunc :=
  match t with
  | TInt => Some long_mul
  | TFloat => Some float_mul
  | _ => None
  end.

(** [binary_op1] of abstract.c: the slot of the left operand's type, then,
    when the types differ, the slot of the right operand's type.  None of
    the types here is a subclass of another, so the right slot never goes
    first. *)
Definition binary_op1 (slot : pytype -> option binaryfunc) (v w : value)
    : slot_result :=
  let slotv := slot (type_of v) in
  let slotw := if pytype_eqb (type_of v) (type_of w) then None
               else slot (type_of w) in
  let try_w :=
    match slotw with
    | Some g => g v w
    | None => NotImplemented
    end in
  match slotv with
  | Some f =>
      match f v w with
      | Done r => Done r
      | NotImplemented => try_w
      end
  | None => try_w
  end.

(** *** Sequence slots of [str] *)

(** [unicode_concat]: the right operand must be a [str].  (Its length check
    against [PY_SSIZE_T_MAX] cannot fire on two strings that are both in
    memory and is left out.) *)
Definition unicode_concat (s : string) (w : value) : result value :=
  match w with
  | VStr t => Ok (VStr (s +:+ t))
  | _ => Raise TypeError
  end.

Fixpoint string_repeat (s : string) (n : nat) : string :=
  match n with
  | O => ""
  | S k => s +:+ string_repeat s k
  end.

(** [unicode_repeat]: fewer than one copy is the empty string; a result
    longer than [PY_SSIZE_T_MAX] is refused.  (Allocation is taken to
    succeed.) *)
Definition unicode_repeat (s : string) (count : Z) : result value :=
  if count <? 1 then Ok (VStr "")
  else if Z.of_nat (String.length s) >? PY_SSIZE_T_MAX / count
       then Raise OverflowError
       else Ok (VStr (string_repeat s (Z.to_nat count))).

(** [sequence_repeat]: the count must be an index, that is an [int], and it
    must fit a [Py_ssize_t]. *)
Definition sequence_repeat (s : string) (n : value) : result value :=
  match n with
  | VInt count =>
      if (count <? - PY_SSIZE_T_MAX - 1) || (PY_SSIZE_T_MAX <? count)
      then Raise OverflowError
      else unicode_repeat s count
  | _ => Raise TypeError
  end.

(** *** The operators *)

(** [PyNumber_Add]: the number slots, then the concatenation of the left
    operand when it is a sequence, else [TypeError]. *)
Definition PyNumber_Add (v w : value) : result value :=
  match binary_op1 nb_add v w with
  | Done r => r
  | NotImplemented =>
      match v with
      | VStr s => unicode_concat s w
      | _ => Raise TypeError
      end
  end.

(** [PyNumber_Multiply]: the number slots, then the repetition of whichever
    operand is a sequence (the left one first), else [TypeError]. *)
Definition PyNumber_Multiply (v w : value) : result value :=
  match binary_op1 nb_multiply v w with
  | Done r => r
  | NotImplemented =>
      match v, w with
      | VStr s, _ => sequence_repeat s w
      | _, VStr s => sequence_repeat s v
      | _, _ => Raise TypeError
      end
  end.

(** *** [==]

    Same-type comparisons of the built-in types; an int and a float are
    compared exactly, as [float_richcompare] does; instances of
    [Calculator] and the class object inherit identity comparison from
    [object]; values of unrelated types are unequal. *)
Definition float_eq : spec_float -> spec_float -> bool := SFeqb.

Definition int_float_eq (n : Z) (f : spec_float) : bool :=
  match f with
  | S754_zero _ => n =? 0
  | S754_finite s m e =>
      let sm := if s then Z.neg m else Z.pos m in
      if 0 <=? e then n =? sm * 2 ^ e else n * 2 ^ (- e) =? sm
  | S754_infinity _ | S754_nan => false
  end.

Definition py_eq (v w : value) : bool :=
  match v, w with
  | VNone, VNone => true
  | VInt a, VInt b => a =? b
  | VFloat a, VFloat b => float_eq a b
  | VInt a, VFloat b => int_float_eq a b
  | VFloat a, VInt b => int_float_eq b a
  | VStr s, VStr t => String.eqb s t
  | VClass, VClass => true
  | VObj l, VObj k => Nat.eqb l k
  | _, _ => false
  end.

End Host.

(** ** The script *)

Module Sample.
Import Host.

(** An instance of [Calculator]: its [__dict__]. *)
Record instance : Type := { inst_dict : gmap string value }.

(** Interpreter state: the module's global names, the heap of instances and
    the log of the methods of [Calculator] entered so far, oldest first. *)
Record state : Type := {
  globals : gmap string value;
  heap : list instance;
  calls : list string
}.

(** The state the module body starts in.  (The names a fresh module is
    given, [__name__] and the like, are not read by the script and are left
    out.) *)
Definition initial : state :=
  {| globals := ∅; heap := []; calls := [] |}.

(** Computations read and write the state and end in a value or an
    exception; the state reached is kept on both ways out. *)
Definition M (A : Type) : Type := state → result A * state.

#[global] Instance M_ret : MRet M := λ A x s, (Ok x, s).

#[global] Instance M_bind : MBind M := λ A B k m s,
  match m s with
  | (inr x, s') => k x s'
  | (inl e, s') => (inl e, s')
  end.

Definition lift {A} (r : result A) : M A := λ s, (r, s).

Definition raise {A} (e : exn) : M A := lift (Raise e).

Definition load_name (x : string) : M value := λ s,
  match globals s !! x with
  | Some v => (Ok v, s)
  | None => (Raise NameError, s)
  end.

Definition store_name (x : string) (v : value) : M unit := λ s,
  (Ok (), {| globals := <[x := v]> (globals s);
             heap := heap s;
             calls := calls s |}).

Definition new_instance : M value := λ s,
  (Ok (VObj (length (heap s))),
   {| globals := globals s;
      heap := heap s ++ [{| inst_dict := ∅ |}];
      calls := calls s |}).

Definition deref (l : loc) : M instance := λ s,
  match heap s !! l with
  | Some o => (Ok o, s)
  | None => (Raise SystemError, s)
  end.

Definition enter (name : string) : M unit := λ s,
  (Ok (), {| globals := globals s;
             heap := heap s;
             calls := calls s ++ [name] |}).

(** *** class Calculator *)

(** [def unused_method(self): return "never called"] *)
Definition unused_method (self : value) : M value :=
  mret (VStr "never called").

(** [def add(self, a, b): return a + b] *)
Definition add (self a b : value) : M value :=
  lift (PyNumber_Add a b).

(** [def multiply(self, a, b): return a * b] *)
Definition multiply (self a b : value) : M value :=
  lift (PyNumber_Multiply a b).

(** The namespace of the class: each function with the binding of its
    positional parameters; a call with the wrong number of arguments is a
    [TypeError].  The body is entered, and logged, once the parameters are
    bound. *)
Definition Calculator_dict (name : string)
    : option (list value → M value) :=
  if decide (name = "unused_method") then
    Some (λ args, match args with
                  | [self] => enter name;; unused_method self
                  | _ => raise TypeError
                  end)
  else if decide (name = "add") then
    Some (λ args, match args with
                  | [self; a; b] => enter name;; add self a b
                  | _ => raise TypeError
                  end)
  else if decide (name = "multiply") then
    Some (λ args, match args with
                  | [self; a; b] => enter name;; multiply self a b
                  | _ => raise TypeError
                  end)
  else None.

(** Calling a value: the class object builds an instance ([Calculator]
    defines no [__init__], so it takes no argument); no other value of the
    fragment is callable. *)
Definition call_value (f : value) (args : list value) : M value :=
  match f with
  | VClass =>
      match args with
      | [] => new_instance
      | _ => raise TypeError
      end
  | _ => raise TypeError
  end.

(** [obj.name(args)].  On an instance the instance dictionary shadows the
    functions of the class, which are bound to the instance; on the class
    object the function is called unbound.  The lookup covers the names the
    script can define, the instance dictionary and the namespace of the
    class.  What [object] and [type] hand down to them and the attributes
    of the built-in values are outside the model, where every other name is
    absent; the properties below call the names of the class only. *)
Definition call_method (obj : value) (name : string) (args : list value)
    : M value :=
  match obj with
  | VObj l =>
      o ← deref l;
      match inst_dict o !! name with
      | Some f => call_value f args
      | None =>
          match Calculator_dict name with
          | Some f => f (obj :: args)
          | None => raise AttributeError
          end
      end
  | VClass =>
      match Calculator_dict name with
      | Some f => f args
      | None => raise AttributeError
      end
  | _ => raise AttributeError
  end.

(** *** The module body *)

(** [x = f(args)] where [f] is a global name *)
Definition assign_call (x f : string) (args : list value) : M unit :=
  c ← load_name f;
  v ← call_value c args;
  store_name x v.

(** [x = obj.name(args)] where [obj] is a global name *)
Definition assign_method_call (x obj name : string) (args : list value)
    : M unit :=
  o ← load_name obj;
  v ← call_method o name args;
  store_name x v.

Definition module_body : M unit :=
  (* class Calculator: ... *)
  store_name "Calculator" VClass;;
  (* calc = Calculator() *)
  assign_call "calc" "Calculator" [];;
  (* result1 = calc.add(1, 2); result2 = calc.add(3, 4) *)
  assign_method_call "result1" "calc" "add" [VInt 1; VInt 2];;
  assign_method_call "result2" "calc" "add" [VInt 3; VInt 4];;
  (* result3 = calc.multiply(2, 3) ... result5 = calc.multiply(6, 7) *)
  assign_method_call "result3" "calc" "multiply" [VInt 2; VInt 3];;
  assign_method_call "result4" "calc" "multiply" [VInt 4; VInt 5];;
  assign_method_call "result5" "calc" "multiply" [VInt 6; VInt 7].

(** Number of times the method [name] was entered. *)
Definition invocations (name : string) (s : state) : nat :=
  length (filter (λ n, n = name) (calls s)).

End Sample.

(** ** Vocabulary of the properties *)

Module Props.
Import Host Sample.

Definition succeeds {A} (r : result A) : bool :=
  match r with
  | inr _ => true
  | inl _ => false
  end.

(** An int is in the range of the floats when its conversion succeeds. *)
Definition fits_double (n : Z) : bool := succeeds (PyLong_AsDouble n).

(** A pair of numbers is in range unless it pairs a float with an int that
    has no float. *)
Definition in_float_range (a b : value) : bool :=
  match a, b with
  | VInt n, VFloat _ | VFloat _, VInt n => fits_double n
  | _, _ => true
  end.

(** The operand of a float operation: a float itself, an int rounded to the
    nearest double. *)
Definition double_of (v : value) : spec_float :=
  match v with
  | VFloat f => f
  | VInt n => binary_normalize DBL_MANT_DIG DBL_MAX_EXP n 0 false
  | _ => S754_nan
  end.

(** The sum and the product of two numbers in the host's arithmetic, as the
    specification words them: the integer sum (product) of two ints, and the
    binary64 sum (product) once a float is involved. *)
Definition arith_sum (a b : value) : value :=
  match a, b with
  | VInt x, VInt y => VInt (x + y)
  | _, _ => VFloat (float_plus (double_of a) (double_of b))
  end.

Definition arith_product (a b : value) : value :=
  match a, b with
  | VInt x, VInt y => VInt (x * y)
  | _, _ => VFloat (float_times (double_of a) (double_of b))
  end.

(** Two outcomes agree when they are the same exception, or two values that
    compare equal under [==], or two NaNs. *)
Definition same_outcome (r1 r2 : result value) : Prop :=
  match r1, r2 with
  | inl e1, inl e2 => e1 = e2
  | inr v, inr w => py_eq v w = true ∨ (is_nan v = true ∧ is_nan w = true)
  | _, _ => False
  end.

(** The names the class defines. *)
Definition defines (name : string) : bool :=
  match Calculator_dict name with
  | Some _ => true
  | None => false
  end.

(** The instance at [l] exists and has no attribute. *)
Definition attribute_free (s : state) (l : loc) : Prop :=
  heap s !! l = Some {| inst_dict := ∅ |}.

(** The state once [n] more entries of the method [name] are logged. *)
Definition logged (n : nat) (name : string) (s : state) : state :=
  {| globals := globals s;
     heap := heap s;
     calls := calls s ++ replicate n name |}.

(** The same call made [n] times in a row, collecting the values. *)
Fixpoint repeat_call (n : nat) (c : M value) : M (list value) :=
  match n with
  | O => mret []
  | S k => v ← c; vs ← repeat_call k c; mret (v :: vs)
  end.

(** A history of calls [obj.name(args)] made on one object, each run to its
    end (value or exception), and the state it leaves.  [own_calls] holds
    of the histories that call the methods of the class, with any
    arguments. *)
Definition own_calls (h : list (string * list value)) : bool :=
  forallb (λ c, defines (fst c)) h.

Fixpoint replay (obj : value) (h : list (string * list value)) (s : state)
    : state :=
  match h with
  | [] => s
  | (name, args) :: h' => replay obj h' (snd (call_method obj name args s))
  end.

(** The state once the global [x] is bound to [v], and once an instance is
    allocated. *)
Definition bound (x : string) (v : value) (s : state) : state :=
  {| globals := <[x := v]> (globals s);
     heap := heap s;
     calls := calls s |}.

Definition allocated (s : state) : state :=
  {| globals := globals s;
     heap := heap s ++ [{| inst_dict := ∅ |}];
     calls := calls s |}.

(** The state the module body leaves when started in [s0]: the effects of
    its seven statements, the first innermost. *)
Definition end_state (s0 : state) : state :=
  bound "result5" (VInt 42) (logged 1 "multiply"
  (bound "result4" (VInt 20) (logged 1 "multiply"
  (bound "result3" (VInt 6) (logged 1 "multiply"
  (bound "result2" (VInt 7) (logged 1 "add"
  (bound "result1" (VInt 3) (logged 1 "add"
  (bound "calc" (VObj (length (heap s0)))
  (allocated (bound "Calculator" VClass s0)))))))))))).

(** The state the script ends in when run as a fresh module, and the
    instance it builds. *)
Definition final : state := snd (module_body initial).
Definition calc : value := VObj 0%nat.

(** Some doubles. *)
Definition pos_inf : spec_float := S754_infinity false.
Definition neg_inf : spec_float := S754_infinity true.
Definition pos_zero : spec_float := S754_zero false.
Definition one : spec_float := S754_finite false (2 ^ 52) (-52).

(** Values with neither a number slot nor a sequence slot: [None], the
    class object and the instances of [Calculator] (the class defines no
    operator method). *)
Definition is_opaque (v : value) : bool :=
  match v with
  | VNone | VClass | VObj _ => true
  | _ => false
  end.

Definition is_int (v : value) : bool :=
  match v with
  | VInt _ => true
  | _ => false
  end.

(** A zero of either numeric type: [0], [0.0] or [-0.0]. *)
Definition is_zero (v : value) : bool :=
  match v with
  | VInt 0 | VFloat (S754_zero _) => true
  | _ => false
  end.

(** The global names the module body binds. *)
Definition script_names : list string :=
  ["Calculator"; "calc"; "result1"; "result2"; "result3"; "result4";
   "result5"].


(** The number of parameters after [self] of the methods of the class. *)
Definition arity (name : string) : option nat :=
  if decide (name = "unused_method") then Some 0%nat
  else if decide (name = "add") then Some 2%nat
  else if decide (name = "multiply") then Some 2%nat
  else None.

End Props.

(** ** Facts about the operators *)

Module HostFacts.
Import Host.

(** binary64 addition and multiplication do not depend on the order of the
    operands. *)
Lemma SFadd_comm (x y : spec_float) : float_plus x y = float_plus y x.
Proof.
  unfold float_plus.
  destruct x as [sx | sx | | sx mx ex], y as [sy | sy | | sy my ey];
    try reflexivity;
    try (destruct sx, sy; reflexivity).
  unfold SFadd. rewrite (Z.min_comm ey ex). f_equal. apply Z.add_comm.
Qed.

Lemma SFmul_comm (x y : spec_float) : float_times x y = float_times y x.
Proof.
  unfold float_times.
  destruct x as [sx | sx | | sx mx ex], y as [sy | sy | | sy my ey];
    try reflexivity;
    try (destruct sx, sy; reflexivity).
  unfold SFmul.
  rewrite (xorb_comm sy sx), (Pos.mul_comm my mx), (Z.add_comm ey ex).
  reflexivity.
Qed.

(** A float that is not NaN equals itself. *)
Lemma float_eq_refl (f : spec_float) : f ≠ S754_nan → float_eq f f = true.
Proof.
  intros Hnan. unfold float_eq, SFeqb.
  destruct f as [s | s | | s m e]; try congruence.
  - reflexivity.
  - destruct s; reflexivity.
  - destruct s; simpl; rewrite Z.compare_refl, Pos.compare_cont_refl;
      reflexivity.
Qed.

Lemma py_eq_refl (v : value) : is_nan v = false → py_eq v v = true.
Proof.
  destruct v as [| n | f | s | | l]; simpl; intros Hnan.
  - reflexivity.
  - apply Z.eqb_refl.
  - apply float_eq_refl. intros ->. discriminate.
  - apply String.eqb_refl.
  - reflexivity.
  - apply Nat.eqb_refl.
Qed.

(** The conversion of an int raises nothing but [OverflowError]. *)
Lemma PyLong_AsDouble_cases (n : Z) :
  PyLong_AsDouble n = Raise OverflowError ∨
  PyLong_AsDouble n =
    Ok (binary_normalize DBL_MANT_DIG DBL_MAX_EXP n 0 false).
Proof.
  unfold PyLong_AsDouble.
  destruct (binary_normalize _ _ _ _ _); auto.
Qed.

(** *** The operators on numbers, case by case *)

Lemma add_int_int (x y : Z) :
  PyNumber_Add (VInt x) (VInt y) = Ok (VInt (x + y)).
Proof. reflexivity. Qed.

Lemma mul_int_int (x y : Z) :
  PyNumber_Multiply (VInt x) (VInt y) = Ok (VInt (x * y)).
Proof. reflexivity. Qed.

Lemma add_float_float (x y : spec_float) :
  PyNumber_Add (VFloat x) (VFloat y) = Ok (VFloat (float_plus x y)).
Proof. reflexivity. Qed.

Lemma mul_float_float (x y : spec_float) :
  PyNumber_Multiply (VFloat x) (VFloat y) = Ok (VFloat (float_times x y)).
Proof. reflexivity. Qed.

(** An int meeting a float is declined by the int slot and converted by the
    float slot, whichever side it is on. *)
Lemma add_int_float (n : Z) (y : spec_float) :
  PyNumber_Add (VInt n) (VFloat y) =
    match PyLong_AsDouble n with
    | inl e => Raise e
    | inr x => Ok (VFloat (float_plus x y))
    end.
Proof.
  unfold PyNumber_Add, binary_op1; simpl.
  unfold float_add, float_binop; simpl.
  destruct (PyLong_AsDouble n); reflexivity.
Qed.

Lemma add_float_int (x : spec_float) (n : Z) :
  PyNumber_Add (VFloat x) (VInt n) =
    match PyLong_AsDouble n with
    | inl e => Raise e
    | inr y => Ok (VFloat (float_plus x y))
    end.
Proof.
  unfold PyNumber_Add, binary_op1; simpl.
  unfold float_add, float_binop; simpl.
  destruct (PyLong_AsDouble n); reflexivity.
Qed.

Lemma mul_int_float (n : Z) (y : spec_float) :
  PyNumber_Multiply (VInt n) (VFloat y) =
    match PyLong_AsDouble n with
    | inl e => Raise e
    | inr x => Ok (VFloat (float_times x y))
    end.
Proof.
  unfold PyNumber_Multiply, binary_op1; simpl.
  unfold float_mul, float_binop; simpl.
  destruct (PyLong_AsDouble n); reflexivity.
Qed.

Lemma mul_float_int (x : spec_float) (n : Z) :
  PyNumber_Multiply (VFloat x) (VInt n) =
    match PyLong_AsDouble n with
    | inl e => Raise e
    | inr y => Ok (VFloat (float_times x y))
    end.
Proof.
  unfold PyNumber_Multiply, binary_op1; simpl.
  unfold float_mul, float_binop; simpl.
  destruct (PyLong_AsDouble n); reflexivity.
Qed.

(** On numbers both operators give the same outcome in either order. *)
Lemma PyNumber_Add_comm (a b : value) :
  is_numeric a = true → is_numeric b = true →
  PyNumber_Add a b = PyNumber_Add b a.
Proof.
  destruct a as [| x | x | | |], b as [| y | y | | |]; try discriminate;
    intros _ _.
  - rewrite !add_int_int, Z.add_comm. reflexivity.
  - rewrite add_int_float, add_float_int.
    destruct (PyLong_AsDouble x); [reflexivity | rewrite SFadd_comm; reflexivity].
  - rewrite add_int_float, add_float_int.
    destruct (PyLong_AsDouble y); [reflexivity | rewrite SFadd_comm; reflexivity].
  - rewrite !add_float_float, SFadd_comm. reflexivity.
Qed.

Lemma PyNumber_Multiply_comm (a b : value) :
  is_numeric a = true → is_numeric b = true →
  PyNumber_Multiply a b = PyNumber_Multiply b a.
Proof.
  destruct a as [| x | x | | |], b as [| y | y | | |]; try discriminate;
    intros _ _.
  - rewrite !mul_int_int, Z.mul_comm. reflexivity.
  - rewrite mul_int_float, mul_float_int.
    destruct (PyLong_AsDouble x); [reflexivity | rewrite SFmul_comm; reflexivity].
  - rewrite mul_int_float, mul_float_int.
    destruct (PyLong_AsDouble y); [reflexivity | rewrite SFmul_comm; reflexivity].
  - rewrite !mul_float_float, SFmul_comm. reflexivity.
Qed.

End HostFacts.

(** ** Facts about the class and the module body *)

Module SampleFacts.
Import Host Sample Props HostFacts.

(** The three methods return without touching the state. *)
Lemma unused_method_run (self : value) (s : state) :
  unused_method self s = (Ok (VStr "never called"), s).
Proof. reflexivity. Qed.

Lemma add_run (self a b : value) (s : state) :
  add self a b s = (PyNumber_Add a b, s).
Proof. reflexivity. Qed.

Lemma multiply_run (self a b : value) (s : state) :
  multiply self a b s = (PyNumber_Multiply a b, s).
Proof. reflexivity. Qed.

Lemma logged_0 (name : string) (s : state) : logged 0 name s = s.
Proof.
  destruct s as [g h c]. unfold logged; simpl. rewrite app_nil_r. reflexivity.
Qed.

Lemma logged_S (n : nat) (name : string) (s : state) :
  logged n name (logged 1 name s) = logged (S n) name s.
Proof.
  unfold logged; simpl. rewrite <- app_assoc. reflexivity.
Qed.

Lemma attribute_free_logged (n : nat) (name : string) (s : state) (l : loc) :
  attribute_free s l → attribute_free (logged n name s) l.
Proof. intros H. exact H. Qed.

(** A function of the class run on its arguments: it ends in some outcome
    that depends on the arguments only, and at most logs its own entry. *)
Lemma Calculator_dict_run (name : string) (f : list value → M value)
    (args : list value) :
  Calculator_dict name = Some f →
  ∃ (r : result value) (n : nat),
    ∀ s, f args s = (r, logged n name s).
Proof.
  unfold Calculator_dict. intros Hf.
  repeat case_decide; simplify_eq;
    repeat (destruct args as [| ? args];
            try (exists (Raise TypeError), 0%nat; intros s;
                 rewrite logged_0; reflexivity)).
  - exists (Ok (VStr "never called")), 1%nat. reflexivity.
  - eexists (PyNumber_Add _ _), 1%nat. reflexivity.
  - eexists (PyNumber_Multiply _ _), 1%nat. reflexivity.
Qed.

(** A call of a method of the class on an instance without attributes runs
    the function of the class on the instance and the arguments. *)
Lemma call_method_class (l : loc) (name : string) (args : list value)
    (s : state) (f : list value → M value) :
  attribute_free s l →
  Calculator_dict name = Some f →
  call_method (VObj l) name args s = f (VObj l :: args) s.
Proof.
  unfold attribute_free, call_method. intros Hl Hf.
  unfold mbind, M_bind, deref. rewrite Hl. simpl.
  rewrite lookup_empty, Hf. reflexivity.
Qed.

Lemma defines_Some (name : string) :
  defines name = true → ∃ f, Calculator_dict name = Some f.
Proof.
  unfold defines. destruct (Calculator_dict name) as [f |]; [eauto | discriminate].
Qed.

Lemma call_unused_method (l : loc) (s : state) :
  attribute_free s l →
  call_method (VObj l) "unused_method" [] s
    = (Ok (VStr "never called"), logged 1 "unused_method" s).
Proof.
  intros Hl. erewrite call_method_class; [| exact Hl | reflexivity].
  reflexivity.
Qed.

Lemma call_add (l : loc) (a b : value) (s : state) :
  attribute_free s l →
  call_method (VObj l) "add" [a; b] s = (PyNumber_Add a b, logged 1 "add" s).
Proof.
  intros Hl. erewrite call_method_class; [| exact Hl | reflexivity].
  reflexivity.
Qed.

Lemma call_multiply (l : loc) (a b : value) (s : state) :
  attribute_free s l →
  call_method (VObj l) "multiply" [a; b] s
    = (PyNumber_Multiply a b, logged 1 "multiply" s).
Proof.
  intros Hl. erewrite call_method_class; [| exact Hl | reflexivity].
  reflexivity.
Qed.

(** Such a call changes neither the globals nor the heap. *)
Lemma call_method_frame (l : loc) (name : string) (args : list value)
    (s : state) :
  attribute_free s l → defines name = true →
  globals (snd (call_method (VObj l) name args s)) = globals s ∧
  heap (snd (call_method (VObj l) name args s)) = heap s.
Proof.
  intros Hl Hd. destruct (defines_Some name Hd) as [f Hf].
  rewrite (call_method_class _ _ _ _ f Hl Hf).
  destruct (Calculator_dict_run name f (VObj l :: args) Hf) as (r & n & Hrun).
  rewrite Hrun. split; reflexivity.
Qed.

(** Its outcome depends on the name and the arguments only. *)
Lemma call_method_outcome (l l' : loc) (name : string) (args : list value)
    (s s' : state) :
  attribute_free s l → attribute_free s' l' → defines name = true →
  fst (call_method (VObj l) name args s) =
  fst (call_method (VObj l') name args s').
Proof.
  intros Hl Hl' Hd. destruct (defines_Some name Hd) as [f Hf].
  rewrite (call_method_class _ _ _ _ f Hl Hf),
          (call_method_class _ _ _ _ f Hl' Hf).
  revert Hf. unfold Calculator_dict.
  repeat case_decide; intros Hf; simplify_eq;
    repeat (destruct args as [| ? args]; try reflexivity).
Qed.

(** Replaying a history of calls keeps the instance without attributes. *)
Lemma replay_attribute_free (l : loc) (h : list (string * list value))
    (s : state) :
  attribute_free s l → own_calls h = true →
  attribute_free (replay (VObj l) h s) l.
Proof.
  revert s. induction h as [| [name args] h IH]; intros s Hl Hh; cbn [replay].
  - exact Hl.
  - apply andb_true_iff in Hh as [Hd Hh]. apply IH; [| exact Hh].
    unfold attribute_free.
    destruct (call_method_frame l name args s Hl Hd) as [_ ->]. exact Hl.
Qed.

Lemma replay_frame (l : loc) (h : list (string * list value)) (s : state) :
  attribute_free s l → own_calls h = true →
  globals (replay (VObj l) h s) = globals s ∧
  heap (replay (VObj l) h s) = heap s.
Proof.
  revert s. induction h as [| [name args] h IH]; intros s Hl Hc; cbn [replay].
  - split; reflexivity.
  - apply andb_true_iff in Hc as [Hd Hc].
    destruct (call_method_frame l name args s Hl Hd) as [Hg Hh].
    destruct (IH (snd (call_method (VObj l) name args s))) as [Hg' Hh'];
      [unfold attribute_free; rewrite Hh; exact Hl | exact Hc |].
    rewrite Hg', Hh', Hg, Hh. split; reflexivity.
Qed.

(** The five calls of the script, each on its own. *)
Example add_1_2 (self : value) (s : state) :
  add self (VInt 1) (VInt 2) s = (Ok (VInt 3), s).
Proof. reflexivity. Qed.

Example add_3_4 (self : value) (s : state) :
  add self (VInt 3) (VInt 4) s = (Ok (VInt 7), s).
Proof. reflexivity. Qed.

Example multiply_2_3 (self : value) (s : state) :
  multiply self (VInt 2) (VInt 3) s = (Ok (VInt 6), s).
Proof. reflexivity. Qed.

Example multiply_4_5 (self : value) (s : state) :
  multiply self (VInt 4) (VInt 5) s = (Ok (VInt 20), s).
Proof. reflexivity. Qed.

Example multiply_6_7 (self : value) (s : state) :
  multiply self (VInt 6) (VInt 7) s = (Ok (VInt 42), s).
Proof. reflexivity. Qed.

(** *** The run of the module body *)

Lemma seq_run {A B} (m : M A) (k : M B) (x : A) (s s' : state) :
  m s = (Ok x, s') → (m ;; k) s = k s'.
Proof. intros H. unfold mbind, M_bind. rewrite H. reflexivity. Qed.

Lemma attribute_free_fresh (s : state) :
  attribute_free (allocated s) (length (heap s)).
Proof.
  unfold attribute_free; simpl.
  rewrite lookup_app_r by lia. rewrite Nat.sub_diag. reflexivity.
Qed.

(** [x = Calculator()] *)
Lemma assign_call_run (x : string) (s : state) :
  globals s !! "Calculator" = Some VClass →
  assign_call x "Calculator" [] s
    = (Ok (), bound x (VObj (length (heap s))) (allocated s)).
Proof.
  intros H. unfold assign_call, mbind, M_bind, load_name. rewrite H.
  reflexivity.
Qed.

(** [x = calc.name(args)] when the call returns [v] *)
Lemma assign_method_call_run (x name : string) (args : list value)
    (l : loc) (v : value) (s : state) :
  globals s !! "calc" = Some (VObj l) →
  call_method (VObj l) name args s = (Ok v, logged 1 name s) →
  assign_method_call x "calc" name args s
    = (Ok (), bound x v (logged 1 name s)).
Proof.
  intros Hc Hrun. unfold assign_method_call, mbind, M_bind, load_name.
  rewrite Hc. unfold Ok in *. cbv beta iota. rewrite Hrun. reflexivity.
Qed.

Ltac lookup_calc :=
  simpl; rewrite ?lookup_insert_ne by done; apply lookup_insert_eq.

(** From any state the module body runs to its end and leaves
    [end_state]. *)
Lemma module_body_run (s0 : state) : module_body s0 = (Ok (), end_state s0).
Proof.
  pose proof (attribute_free_fresh (bound "Calculator" VClass s0)) as Hl.
  unfold module_body.
  erewrite seq_run by reflexivity.
  erewrite seq_run by (apply assign_call_run; lookup_calc).
  do 2 (erewrite seq_run;
        [| eapply assign_method_call_run with (l := length (heap s0));
           [lookup_calc | rewrite call_add by exact Hl; reflexivity]]).
  do 2 (erewrite seq_run;
        [| eapply assign_method_call_run with (l := length (heap s0));
           [lookup_calc | rewrite call_multiply by exact Hl; reflexivity]]).
  eapply assign_method_call_run with (l := length (heap s0));
    [lookup_calc | rewrite call_multiply by exact Hl; reflexivity].
Qed.

Lemma end_state_calls (s0 : state) :
  calls (end_state s0)
    = (calls s0 ++ ["add"; "add"; "multiply"; "multiply"; "multiply"])%list.
Proof. simpl. rewrite <- !app_assoc. reflexivity. Qed.

Lemma end_state_invocations (name : string) (s0 : state) :
  invocations name (end_state s0) =
    (invocations name s0 +
     invocations name
       {| globals := ∅; heap := [];
          calls := ["add"; "add"; "multiply"; "multiply"; "multiply"] |})%nat.
Proof.
  unfold invocations. rewrite end_state_calls, filter_app, length_app.
  reflexivity.
Qed.

End SampleFacts.

(** ** Properties of the script *)

Module Properties.
Import Host Sample Props HostFacts SampleFacts.

(** An int in range converts to its nearest double. *)
Lemma fits_double_convert (n : Z) :
  fits_double n = true →
  PyLong_AsDouble n = Ok (double_of (VInt n)).
Proof.
  unfold fits_double. intros Hfit.
  destruct (PyLong_AsDouble_cases n) as [Hn | Hn]; rewrite Hn in *.
  - discriminate.
  - reflexivity.
Qed.

Lemma overflow_not_fits (n : Z) :
  fits_double n = false → PyLong_AsDouble n = Raise OverflowError.
Proof.
  unfold fits_double. intros Hfit.
  destruct (PyLong_AsDouble_cases n) as [Hn | Hn]; rewrite Hn in *.
  - reflexivity.
  - discriminate.
Qed.

(** On numbers in range [+] is the sum and [*] the product. *)
Lemma PyNumber_Add_sum (a b : value) :
  is_numeric a = true → is_numeric b = true → in_float_range a b = true →
  PyNumber_Add a b = Ok (arith_sum a b).
Proof.
  destruct a as [| x | x | | |], b as [| y | y | | |]; try discriminate;
    intros _ _ Hr; simpl in Hr.
  - apply add_int_int.
  - rewrite add_int_float, (fits_double_convert _ Hr). reflexivity.
  - rewrite add_float_int, (fits_double_convert _ Hr). reflexivity.
  - apply add_float_float.
Qed.

Lemma PyNumber_Multiply_product (a b : value) :
  is_numeric a = true → is_numeric b = true → in_float_range a b = true →
  PyNumber_Multiply a b = Ok (arith_product a b).
Proof.
  destruct a as [| x | x | | |], b as [| y | y | | |]; try discriminate;
    intros _ _ Hr; simpl in Hr.
  - apply mul_int_int.
  - rewrite mul_int_float, (fits_double_convert _ Hr). reflexivity.
  - rewrite mul_float_int, (fits_double_convert _ Hr). reflexivity.
  - apply mul_float_float.
Qed.

(** Out of range both operators raise [OverflowError]. *)
Lemma PyNumber_out_of_range (a b : value) :
  is_numeric a = true → is_numeric b = true → in_float_range a b = false →
  PyNumber_Add a b = Raise OverflowError ∧
  PyNumber_Multiply a b = Raise OverflowError.
Proof.
  destruct a as [| x | x | | |], b as [| y | y | | |]; try discriminate;
    intros _ _ Hr; simpl in Hr.
  - rewrite add_int_float, mul_int_float, (overflow_not_fits _ Hr).
    split; reflexivity.
  - rewrite add_float_int, mul_float_int, (overflow_not_fits _ Hr).
    split; reflexivity.
Qed.

(** An outcome on numbers agrees with itself: a number that is not NaN
    equals itself. *)
Lemma same_outcome_refl (r : result value) : same_outcome r r.
Proof.
  destruct r as [e | v]; simpl; [reflexivity |].
  destruct (is_nan v) eqn:Hnan; [right; split; reflexivity |].
  left. apply py_eq_refl, Hnan.
Qed.

(** *** C1 *)

(** C1, as stated, fails: [add(2**1024, 1.0)] is a call on two numbers that
    returns no sum; the conversion of the int raises [OverflowError]. *)
Lemma add_int_beyond_float_range :
  is_numeric (VInt (2 ^ 1024)) = true ∧
  is_numeric (VFloat one) = true ∧
  add calc (VInt (2 ^ 1024)) (VFloat one) final
    = (Raise OverflowError, final) ∧
  fst (add calc (VInt (2 ^ 1024)) (VFloat one) final)
    ≠ Ok (arith_sum (VInt (2 ^ 1024)) (VFloat one)).
Proof.
  split; [reflexivity |]. split; [reflexivity |].
  split; [vm_compute; reflexivity |].
  vm_compute. discriminate.
Qed.

(** C1 (amended): for every pair of numbers [a], [b] that does not pair a
    float with an int beyond the range of the floats, [add(a, b)] returns
    the sum [a + b]: the integer sum of two ints, the binary64 sum of the
    operands as floats otherwise; the state is left as it was. *)
Theorem add_returns_sum (self a b : value) (s : state) :
  is_numeric a = true → is_numeric b = true → in_float_range a b = true →
  add self a b s = (Ok (arith_sum a b), s).
Proof.
  intros Ha Hb Hr. rewrite add_run, PyNumber_Add_sum by assumption.
  reflexivity.
Qed.

Lemma add_returns_sum_witness :
  is_numeric (VInt (2 ^ 53 + 1)) = true ∧
  is_numeric (VFloat one) = true ∧
  in_float_range (VInt (2 ^ 53 + 1)) (VFloat one) = true ∧
  add calc (VInt (2 ^ 53 + 1)) (VFloat one) final
    = (Ok (arith_sum (VInt (2 ^ 53 + 1)) (VFloat one)), final).
Proof.
  split; [reflexivity |]. split; [reflexivity |].
  split; [vm_compute; reflexivity |].
  apply (add_returns_sum calc (VInt (2 ^ 53 + 1)) (VFloat one) final);
    vm_compute; reflexivity.
Defined.

(** *** C2 *)

(** C2, as stated, fails: [multiply(0.0, -(2**1024))] is a call on two
    numbers that returns no product; the conversion of the int raises
    [OverflowError]. *)
Lemma multiply_int_beyond_float_range :
  is_numeric (VFloat pos_zero) = true ∧
  is_numeric (VInt (- 2 ^ 1024)) = true ∧
  multiply calc (VFloat pos_zero) (VInt (- 2 ^ 1024)) final
    = (Raise OverflowError, final) ∧
  fst (multiply calc (VFloat pos_zero) (VInt (- 2 ^ 1024)) final)
    ≠ Ok (arith_product (VFloat pos_zero) (VInt (- 2 ^ 1024))).
Proof.
  split; [reflexivity |]. split; [reflexivity |].
  split; [vm_compute; reflexivity |].
  vm_compute. discriminate.
Qed.

(** C2 (amended): for every pair of numbers [a], [b] that does not pair a
    float with an int beyond the range of the floats, [multiply(a, b)]
    returns the product [a * b]: the integer product of two ints, the
    binary64 product of the operands as floats otherwise; the state is left
    as it was. *)
Theorem multiply_returns_product (self a b : value) (s : state) :
  is_numeric a = true → is_numeric b = true → in_float_range a b = true →
  multiply self a b s = (Ok (arith_product a b), s).
Proof.
  intros Ha Hb Hr. rewrite multiply_run, PyNumber_Multiply_product by assumption.
  reflexivity.
Qed.

Lemma multiply_returns_product_witness :
  is_numeric (VInt 3) = true ∧
  is_numeric (VFloat one) = true ∧
  in_float_range (VInt 3) (VFloat one) = true ∧
  multiply calc (VInt 3) (VFloat one) final
    = (Ok (arith_product (VInt 3) (VFloat one)), final).
Proof.
  split; [reflexivity |]. split; [reflexivity |].
  split; [vm_compute; reflexivity |].
  apply (multiply_returns_product calc (VInt 3) (VFloat one) final);
    vm_compute; reflexivity.
Defined.

(** *** C3 *)

(** C3: from any starting state [s0] the module body runs to its end without
    an exception, and over the run [add] is entered exactly twice,
    [multiply] exactly three times and [unused_method] never: the log grows
    by these five entries.  Run as a fresh module, the counts at the end
    are 2, 3 and 0. *)
Theorem module_body_invocations (s0 : state) :
  fst (module_body s0) = Ok () ∧
  calls (snd (module_body s0))
    = (calls s0 ++ ["add"; "add"; "multiply"; "multiply"; "multiply"])%list ∧
  invocations "add" (snd (module_body s0))
    = (invocations "add" s0 + 2)%nat ∧
  invocations "multiply" (snd (module_body s0))
    = (invocations "multiply" s0 + 3)%nat ∧
  invocations "unused_method" (snd (module_body s0))
    = (invocations "unused_method" s0 + 0)%nat ∧
  invocations "add" final = 2%nat ∧
  invocations "multiply" final = 3%nat ∧
  invocations "unused_method" final = 0%nat.
Proof.
  rewrite module_body_run. cbn [fst snd].
  split; [reflexivity |]. split; [apply end_state_calls |].
  rewrite !end_state_invocations. repeat split.
Qed.

(** *** C4 *)

(** C4: on an instance without attributes, [unused_method()] called with no
    argument any number [n] of times in a row (none included) returns the
    string ["never called"] each time and changes neither the globals nor
    the heap: the state differs by the [n] logged entries only.  The method
    body itself leaves the whole state as it is. *)
Theorem unused_method_constant (l : loc) (s : state) (n : nat) :
  attribute_free s l →
  repeat_call n (call_method (VObj l) "unused_method" []) s
    = (Ok (replicate n (VStr "never called")), logged n "unused_method" s) ∧
  unused_method (VObj l) s = (Ok (VStr "never called"), s).
Proof.
  intros Hl. split; [| reflexivity].
  revert s Hl. induction n as [| n IH]; intros s Hl.
  - simpl. rewrite logged_0. reflexivity.
  - cbn [repeat_call]. unfold mbind, M_bind.
    rewrite call_unused_method by exact Hl.
    rewrite (IH (logged 1 "unused_method" s))
      by (apply attribute_free_logged, Hl).
    rewrite logged_S. reflexivity.
Qed.

Lemma unused_method_constant_witness :
  attribute_free final 0%nat ∧
  repeat_call 3 (call_method (VObj 0%nat) "unused_method" []) final
    = (Ok (replicate 3 (VStr "never called")), logged 3 "unused_method" final) ∧
  unused_method (VObj 0%nat) final = (Ok (VStr "never called"), final).
Proof.
  split; [vm_compute; reflexivity |].
  apply (unused_method_constant 0%nat final 3). vm_compute; reflexivity.
Defined.

(** *** C5 *)

(** C5: from any starting state [s0] the module body runs to its end without
    an exception and leaves [result1] .. [result5] bound to 3, 7, 6, 20 and
    42. *)
Theorem module_body_results (s0 : state) :
  fst (module_body s0) = Ok () ∧
  globals (snd (module_body s0)) !! "result1" = Some (VInt 3) ∧
  globals (snd (module_body s0)) !! "result2" = Some (VInt 7) ∧
  globals (snd (module_body s0)) !! "result3" = Some (VInt 6) ∧
  globals (snd (module_body s0)) !! "result4" = Some (VInt 20) ∧
  globals (snd (module_body s0)) !! "result5" = Some (VInt 42).
Proof.
  rewrite module_body_run. cbn [fst snd].
  split; [reflexivity |].
  repeat split; simpl;
    rewrite ?lookup_insert_ne by done; apply lookup_insert_eq.
Qed.

(** *** C6 *)

(** C6, as stated, fails: [add(inf, -inf)] and [add(-inf, inf)] both return
    NaN, and NaN does not compare equal to itself, so
    [add(a, b) == add(b, a)] is false there. *)
Lemma add_commuted_not_equal :
  is_numeric (VFloat pos_inf) = true ∧
  is_numeric (VFloat neg_inf) = true ∧
  fst (add calc (VFloat pos_inf) (VFloat neg_inf) final) = Ok (VFloat S754_nan) ∧
  fst (add calc (VFloat neg_inf) (VFloat pos_inf) final) = Ok (VFloat S754_nan) ∧
  py_eq (VFloat S754_nan) (VFloat S754_nan) = false.
Proof. repeat split. Qed.

(** C6 (amended): for all numbers [a] and [b], [add(a, b)] and [add(b, a)]
    have the same outcome, and so have [multiply(a, b)] and
    [multiply(b, a)]: both raise the same exception, or both return values
    that compare equal under [==], or both return NaN. *)
Theorem add_multiply_commute (self a b : value) (s : state) :
  is_numeric a = true → is_numeric b = true →
  same_outcome (fst (add self a b s)) (fst (add self b a s)) ∧
  same_outcome (fst (multiply self a b s)) (fst (multiply self b a s)).
Proof.
  intros Ha Hb. rewrite !add_run, !multiply_run. simpl.
  rewrite (PyNumber_Add_comm a b), (PyNumber_Multiply_comm a b) by assumption.
  split; apply same_outcome_refl.
Qed.

Lemma add_multiply_commute_witness :
  is_numeric (VInt 2) = true ∧
  is_numeric (VFloat one) = true ∧
  same_outcome (fst (add calc (VInt 2) (VFloat one) final))
               (fst (add calc (VFloat one) (VInt 2) final)) ∧
  same_outcome (fst (multiply calc (VInt 2) (VFloat one) final))
               (fst (multiply calc (VFloat one) (VInt 2) final)).
Proof.
  split; [reflexivity |]. split; [reflexivity |].
  apply (add_multiply_commute calc (VInt 2) (VFloat one) final); reflexivity.
Defined.

(** *** C7 *)

(** C7: on an instance without attributes, the outcome of [add(a, b)] and
    of [multiply(a, b)], value or exception, is the same after any two
    histories [h1], [h2] of calls of the methods of the class made on the
    instance, whatever the methods and the arguments of those earlier calls
    and whether they returned or raised. *)
Theorem add_multiply_deterministic (l : loc) (s : state)
    (h1 h2 : list (string * list value)) (a b : value) :
  attribute_free s l → own_calls h1 = true → own_calls h2 = true →
  fst (call_method (VObj l) "add" [a; b] (replay (VObj l) h1 s)) =
  fst (call_method (VObj l) "add" [a; b] (replay (VObj l) h2 s)) ∧
  fst (call_method (VObj l) "multiply" [a; b] (replay (VObj l) h1 s)) =
  fst (call_method (VObj l) "multiply" [a; b] (replay (VObj l) h2 s)).
Proof.
  intros Hl H1 H2.
  split; apply call_method_outcome;
    try apply replay_attribute_free; auto.
Qed.

Lemma add_multiply_deterministic_witness :
  attribute_free final 0%nat ∧
  own_calls [] = true ∧
  own_calls [("multiply", [VStr "ab"; VInt 2]); ("add", [VInt 1; VNone]);
             ("unused_method", [])] = true ∧
  fst (call_method (VObj 0%nat) "add" [VInt 1; VInt 2] (replay (VObj 0%nat) [] final)) =
  fst (call_method (VObj 0%nat) "add" [VInt 1; VInt 2]
         (replay (VObj 0%nat)
            [("multiply", [VStr "ab"; VInt 2]); ("add", [VInt 1; VNone]);
             ("unused_method", [])] final)) ∧
  fst (call_method (VObj 0%nat) "multiply" [VInt 1; VInt 2] (replay (VObj 0%nat) [] final)) =
  fst (call_method (VObj 0%nat) "multiply" [VInt 1; VInt 2]
         (replay (VObj 0%nat)
            [("multiply", [VStr "ab"; VInt 2]); ("add", [VInt 1; VNone]);
             ("unused_method", [])] final)).
Proof.
  split; [vm_compute; reflexivity |].
  split; [reflexivity |]. split; [reflexivity |].
  apply (add_multiply_deterministic 0%nat final []
           [("multiply", [VStr "ab"; VInt 2]); ("add", [VInt 1; VNone]);
            ("unused_method", [])] (VInt 1) (VInt 2));
    vm_compute; reflexivity.
Defined.

(** *** C8 *)

(** C8, as stated, fails: [add(10**400, 0.0)] and [multiply(10**400, 0.0)]
    are calls on two numbers and raise [OverflowError]. *)
Lemma add_multiply_raise_on_numbers :
  is_numeric (VInt (10 ^ 400)) = true ∧
  is_numeric (VFloat pos_zero) = true ∧
  fst (add calc (VInt (10 ^ 400)) (VFloat pos_zero) final)
    = Raise OverflowError ∧
  fst (multiply calc (VInt (10 ^ 400)) (VFloat pos_zero) final)
    = Raise OverflowError.
Proof. vm_compute. repeat split. Qed.

(** C8 (amended): on numbers [add] and [multiply] raise no error exactly
    when the pair does not pair a float with an int beyond the range of the
    floats: then they return the sum and the product, and otherwise they
    raise [OverflowError]; two ints and two floats are always in range.
    The module body, with its five calls, raises nothing from whatever
    state it is started in. *)
Theorem add_multiply_total_in_range (self a b : value) (s : state) :
  is_numeric a = true → is_numeric b = true →
  fst (add self a b s)
    = (if in_float_range a b then Ok (arith_sum a b)
       else Raise OverflowError) ∧
  fst (multiply self a b s)
    = (if in_float_range a b then Ok (arith_product a b)
       else Raise OverflowError) ∧
  (∀ x y : Z, in_float_range (VInt x) (VInt y) = true) ∧
  (∀ x y : spec_float, in_float_range (VFloat x) (VFloat y) = true) ∧
  fst (module_body s) = Ok ().
Proof.
  intros Ha Hb. rewrite add_run, multiply_run, module_body_run. simpl fst.
  destruct (in_float_range a b) eqn:Hr.
  - rewrite PyNumber_Add_sum, PyNumber_Multiply_product by assumption.
    repeat split.
  - destruct (PyNumber_out_of_range a b Ha Hb Hr) as [-> ->].
    repeat split.
Qed.

Lemma add_multiply_total_in_range_witness :
  is_numeric (VFloat one) = true ∧
  is_numeric (VInt (2 ^ 1023)) = true ∧
  fst (add calc (VFloat one) (VInt (2 ^ 1023)) final)
    = (if in_float_range (VFloat one) (VInt (2 ^ 1023))
       then Ok (arith_sum (VFloat one) (VInt (2 ^ 1023)))
       else Raise OverflowError) ∧
  fst (multiply calc (VFloat one) (VInt (2 ^ 1023)) final)
    = (if in_float_range (VFloat one) (VInt (2 ^ 1023))
       then Ok (arith_product (VFloat one) (VInt (2 ^ 1023)))
       else Raise OverflowError) ∧
  (∀ x y : Z, in_float_range (VInt x) (VInt y) = true) ∧
  (∀ x y : spec_float, in_float_range (VFloat x) (VFloat y) = true) ∧
  fst (module_body final) = Ok ().
Proof.
  split; [reflexivity |]. split; [reflexivity |].
  apply (add_multiply_total_in_range calc (VFloat one) (VInt (2 ^ 1023)) final);
    reflexivity.
Defined.

(** *** C9 *)

(** C9: the object is stateless.  An instance as the constructor builds it
    has no attribute, and the one the script binds to [calc] has none when
    the script ends.  Each of the three methods returns with the state as
    it found it, and with the outcome it has on any other receiver in any
    other state.  A call of a method of the class, with any arguments, on
    an instance without attributes changes neither the globals nor the
    heap, and has the outcome it has on any other such instance in any
    other state. *)
Theorem Calculator_stateless (l1 l2 : loc) (s1 s2 : state)
    (name : string) (args : list value) (self self' a b : value) :
  attribute_free s1 l1 → attribute_free s2 l2 → defines name = true →
  fst (call_value VClass [] s1) = Ok (VObj (length (heap s1))) ∧
  attribute_free (snd (call_value VClass [] s1)) (length (heap s1)) ∧
  globals (snd (module_body s1)) !! "calc" = Some (VObj (length (heap s1))) ∧
  attribute_free (snd (module_body s1)) (length (heap s1)) ∧
  unused_method self s1 = (fst (unused_method self' s2), s1) ∧
  add self a b s1 = (fst (add self' a b s2), s1) ∧
  multiply self a b s1 = (fst (multiply self' a b s2), s1) ∧
  globals (snd (call_method (VObj l1) name args s1)) = globals s1 ∧
  heap (snd (call_method (VObj l1) name args s1)) = heap s1 ∧
  fst (call_method (VObj l1) name args s1)
    = fst (call_method (VObj l2) name args s2).
Proof.
  intros H1 H2 Hd.
  split; [reflexivity |].
  split; [apply (attribute_free_fresh s1) |].
  rewrite module_body_run. cbn [snd].
  split; [simpl; rewrite ?lookup_insert_ne by done; apply lookup_insert_eq |].
  split; [apply (attribute_free_fresh (bound "Calculator" VClass s1)) |].
  do 3 (split; [reflexivity |]).
  destruct (call_method_frame l1 name args s1 H1 Hd) as [Hg Hh].
  split; [exact Hg |]. split; [exact Hh |].
  apply call_method_outcome; assumption.
Qed.

Lemma Calculator_stateless_witness :
  attribute_free final 0%nat ∧
  attribute_free (logged 2 "add" final) 0%nat ∧
  defines "add" = true ∧
  fst (call_value VClass [] final) = Ok (VObj 1%nat) ∧
  attribute_free (snd (call_value VClass [] final)) 1%nat ∧
  globals (snd (module_body final)) !! "calc" = Some (VObj 1%nat) ∧
  attribute_free (snd (module_body final)) 1%nat ∧
  unused_method calc final = (fst (unused_method VNone (logged 2 "add" final)), final) ∧
  add calc (VInt 1) (VInt 2) final
    = (fst (add VNone (VInt 1) (VInt 2) (logged 2 "add" final)), final) ∧
  multiply calc (VInt 1) (VInt 2) final
    = (fst (multiply VNone (VInt 1) (VInt 2) (logged 2 "add" final)), final) ∧
  globals (snd (call_method (VObj 0%nat) "add" [VInt 1; VInt 2] final))
    = globals final ∧
  heap (snd (call_method (VObj 0%nat) "add" [VInt 1; VInt 2] final))
    = heap final ∧
  fst (call_method (VObj 0%nat) "add" [VInt 1; VInt 2] final)
    = fst (call_method (VObj 0%nat) "add" [VInt 1; VInt 2]
             (logged 2 "add" final)).
Proof.
  split; [vm_compute; reflexivity |].
  split; [vm_compute; reflexivity |].
  split; [reflexivity |].
  apply (Calculator_stateless 0%nat 0%nat final (logged 2 "add" final)
           "add" [VInt 1; VInt 2] calc VNone (VInt 1) (VInt 2));
    vm_compute; reflexivity.
Defined.

(** *** C10 *)

(** C10: [add] and [multiply] take whatever [+] and [*] take.  On two
    strings [add] returns their concatenation, which depends on the order:
    [add("a", "b")] is ["ab"] and [add("b", "a")] is ["ba"], and the two are
    not equal.  [multiply] repeats a string an int number of times.  Off
    the numbers the methods are not total: an int and a string cannot be
    added, two strings cannot be multiplied, and [None] cannot be added to
    [None]; each raises [TypeError]. *)
Theorem operators_beyond_numbers (self : value) (s : state)
    (x y : string) (n : Z) :
  add self (VStr x) (VStr y) s = (Ok (VStr (x +:+ y)), s) ∧
  fst (add self (VStr "a") (VStr "b") s) = Ok (VStr "ab") ∧
  fst (add self (VStr "b") (VStr "a") s) = Ok (VStr "ba") ∧
  py_eq (VStr "ab") (VStr "ba") = false ∧
  fst (multiply self (VStr "ab") (VInt 2) s) = Ok (VStr "abab") ∧
  fst (multiply self (VInt 2) (VStr "ab") s) = Ok (VStr "abab") ∧
  fst (add self (VInt n) (VStr x) s) = Raise TypeError ∧
  fst (add self (VStr x) (VInt n) s) = Raise TypeError ∧
  fst (multiply self (VStr x) (VStr y) s) = Raise TypeError ∧
  fst (add self VNone VNone s) = Raise TypeError.
Proof. repeat split. Qed.

End Properties.

(** ** Further properties of the methods and of the module body *)

Module Extras.
Import Host Sample Props HostFacts SampleFacts.

Lemma in_range_convert (n : Z) :
  fits_double n = true →
  PyLong_AsDouble n = Ok (double_of (VInt n)).
Proof.
  unfold fits_double. intros Hfit.
  destruct (PyLong_AsDouble_cases n) as [Hn | Hn]; rewrite Hn in *;
    [discriminate | reflexivity].
Qed.

Lemma float_plus_nan_r (x : spec_float) : float_plus x S754_nan = S754_nan.
Proof. destruct x; reflexivity. Qed.

Lemma float_times_nan_r (x : spec_float) : float_times x S754_nan = S754_nan.
Proof. destruct x; reflexivity. Qed.

(** *** Algebra of [add] and [multiply] on ints *)


(** *** The type of the result *)

(** X2: when [add] or [multiply] returns on two numbers, the result is an
    int if both arguments are ints and a float otherwise: ints are never
    turned into floats, and a float argument always gives a float. *)
Theorem result_type (self a b v : value) (s : state) :
  is_numeric a = true → is_numeric b = true →
  fst (add self a b s) = Ok v ∨ fst (multiply self a b s) = Ok v →
  type_of v = if is_int a && is_int b then TInt else TFloat.
Proof.
  rewrite add_run, multiply_run; simpl fst.
  destruct a as [| x | x | | |], b as [| y | y | | |]; try discriminate;
    intros _ _.
  - rewrite add_int_int, mul_int_int.
    intros [H | H]; unfold Ok in H; simplify_eq; reflexivity.
  - rewrite add_int_float, mul_int_float.
    destruct (PyLong_AsDouble x);
      intros [H | H]; unfold Ok, Raise in H; simplify_eq; reflexivity.
  - rewrite add_float_int, mul_float_int.
    destruct (PyLong_AsDouble y);
      intros [H | H]; unfold Ok, Raise in H; simplify_eq; reflexivity.
  - rewrite add_float_float, mul_float_float.
    intros [H | H]; unfold Ok in H; simplify_eq; reflexivity.
Qed.

Lemma result_type_witness :
  is_numeric (VInt 3) = true ∧
  is_numeric (VFloat one) = true ∧
  (fst (add calc (VInt 3) (VFloat one) final)
     = Ok (VFloat (S754_finite false (2 ^ 52) (-50))) ∨
   fst (multiply calc (VInt 3) (VFloat one) final)
     = Ok (VFloat (S754_finite false (2 ^ 52) (-50)))) ∧
  type_of (VFloat (S754_finite false (2 ^ 52) (-50)))
    = (if is_int (VInt 3) && is_int (VFloat one) then TInt else TFloat).
Proof.
  split; [reflexivity |]. split; [reflexivity |].
  split; [left; vm_compute; reflexivity |].
  apply (result_type calc (VInt 3) (VFloat one)
           (VFloat (S754_finite false (2 ^ 52) (-50))) final);
    [reflexivity | reflexivity | left; vm_compute; reflexivity].
Defined.

(** *** Operands that are not numbers *)

(** X3: [Calculator] defines no operator method, so an instance of it, the
    class itself or [None] as either argument makes [add] and [multiply]
    raise [TypeError], whatever the other argument is; the state is left as
    it was. *)
Theorem opaque_operand_TypeError (self a b : value) (s : state) :
  is_opaque a || is_opaque b = true →
  add self a b s = (Raise TypeError, s) ∧
  multiply self a b s = (Raise TypeError, s).
Proof.
  rewrite add_run, multiply_run.
  destruct a, b; try discriminate; intros _; split; reflexivity.
Qed.

Lemma opaque_operand_TypeError_witness :
  is_opaque (VInt 1) || is_opaque calc = true ∧
  add calc (VInt 1) calc final = (Raise TypeError, final) ∧
  multiply calc (VInt 1) calc final = (Raise TypeError, final).
Proof.
  split; [reflexivity |].
  apply (opaque_operand_TypeError calc (VInt 1) calc final). reflexivity.
Defined.

(** *** NaN and zero *)

(** X4: NaN is absorbing: on two numbers in range of which one is NaN, [add]
    and [multiply] return NaN. *)
Theorem nan_propagates (self a b : value) (s : state) :
  is_numeric a = true → is_numeric b = true → in_float_range a b = true →
  is_nan a || is_nan b = true →
  add self a b s = (Ok (VFloat S754_nan), s) ∧
  multiply self a b s = (Ok (VFloat S754_nan), s).
Proof.
  rewrite add_run, multiply_run.
  destruct a as [| x | x | | |], b as [| y | y | | |]; try discriminate;
    intros _ _ Hr Hnan; simpl in Hr, Hnan.
  - destruct y; try discriminate.
    rewrite add_int_float, mul_int_float, (in_range_convert _ Hr).
    unfold Ok. rewrite float_plus_nan_r, float_times_nan_r.
    split; reflexivity.
  - destruct x; try discriminate.
    rewrite add_float_int, mul_float_int, (in_range_convert _ Hr).
    split; reflexivity.
  - rewrite add_float_float, mul_float_float.
    destruct x; try (destruct y; try discriminate;
      rewrite float_plus_nan_r, float_times_nan_r); split; reflexivity.
Qed.

Lemma nan_propagates_witness :
  is_numeric (VInt 7) = true ∧
  is_numeric (VFloat S754_nan) = true ∧
  in_float_range (VInt 7) (VFloat S754_nan) = true ∧
  is_nan (VInt 7) || is_nan (VFloat S754_nan) = true ∧
  add calc (VInt 7) (VFloat S754_nan) final = (Ok (VFloat S754_nan), final) ∧
  multiply calc (VInt 7) (VFloat S754_nan) final
    = (Ok (VFloat S754_nan), final).
Proof.
  split; [reflexivity |]. split; [reflexivity |].
  split; [reflexivity |]. split; [reflexivity |].
  apply (nan_propagates calc (VInt 7) (VFloat S754_nan) final); reflexivity.
Defined.

(** X5: a zero of either type ([0], [0.0], [-0.0]) added to a float that is
    not NaN, on either side, returns a float equal to it under [==].
    Multiplied with a float, a zero gives a value equal to [0], except with
    an infinity or NaN, where it gives NaN. *)
Theorem float_zero_laws (self z : value) (x : spec_float) (s : state) :
  is_zero z = true → is_nan (VFloat x) = false →
  (∃ v w, add self (VFloat x) z s = (Ok v, s) ∧
          add self z (VFloat x) s = (Ok w, s) ∧
          py_eq v (VFloat x) = true ∧ py_eq w (VFloat x) = true) ∧
  (∃ v, multiply self (VFloat x) z s = (Ok v, s) ∧
        multiply self z (VFloat x) s = (Ok v, s) ∧
        match x with
        | S754_infinity _ => is_nan v = true
        | _ => py_eq v (VInt 0) = true
        end).
Proof.
  intros Hz Hnan. rewrite !add_run, !multiply_run.
  assert (Hx : x ≠ S754_nan) by (intros ->; discriminate).
  assert (Hcases : ∃ sz, (z = VInt 0 ∧ sz = false) ∨ z = VFloat (S754_zero sz)).
  { destruct z as [| n | f | | |]; try discriminate.
    - destruct n; try discriminate. exists false. left. split; reflexivity.
    - destruct f as [sz | | |]; try discriminate. exists sz. right. reflexivity. }
  destruct Hcases as [sz [[-> ->] | ->]].
  - destruct x as [sx | sx | | sx mx ex]; try congruence.
    + split; [exists (VFloat (if sx then S754_zero false else S754_zero false)),
                     (VFloat (S754_zero false))
             | exists (VFloat (S754_zero sx))];
        destruct sx; repeat split.
    + split; [exists (VFloat (S754_infinity sx)), (VFloat (S754_infinity sx))
             | exists (VFloat S754_nan)];
        destruct sx; repeat split.
    + split; [exists (VFloat (S754_finite sx mx ex)), (VFloat (S754_finite sx mx ex))
             | exists (VFloat (S754_zero sx))].
      * repeat split; apply (float_eq_refl (S754_finite sx mx ex)); congruence.
      * destruct sx; repeat split.
  - destruct x as [sx | sx | | sx mx ex]; try congruence.
    + split; [exists (VFloat (float_plus (S754_zero sx) (S754_zero sz))),
                     (VFloat (float_plus (S754_zero sz) (S754_zero sx)))
             | exists (VFloat (S754_zero (xorb sx sz)))];
        destruct sx, sz; repeat split.
    + split; [exists (VFloat (S754_infinity sx)), (VFloat (S754_infinity sx))
             | exists (VFloat S754_nan)];
        destruct sx; repeat split.
    + split; [exists (VFloat (S754_finite sx mx ex)), (VFloat (S754_finite sx mx ex))
             | exists (VFloat (S754_zero (xorb sx sz)))].
      * repeat split; apply (float_eq_refl (S754_finite sx mx ex)); congruence.
      * destruct sx, sz; repeat split.
Qed.

Lemma float_zero_laws_witness :
  is_zero (VInt 0) = true ∧
  is_nan (VFloat neg_inf) = false ∧
  (∃ v w, add calc (VFloat neg_inf) (VInt 0) final = (Ok v, final) ∧
          add calc (VInt 0) (VFloat neg_inf) final = (Ok w, final) ∧
          py_eq v (VFloat neg_inf) = true ∧ py_eq w (VFloat neg_inf) = true) ∧
  (∃ v, multiply calc (VFloat neg_inf) (VInt 0) final = (Ok v, final) ∧
        multiply calc (VInt 0) (VFloat neg_inf) final = (Ok v, final) ∧
        is_nan v = true).
Proof.
  split; [reflexivity |]. split; [reflexivity |].
  apply (float_zero_laws calc (VInt 0) neg_inf final); reflexivity.
Defined.

(** *** Calls with the wrong number of arguments *)

(** X6: a method of the class called on an instance with a number of
    arguments other than its parameters after [self] ([add] and [multiply]
    take two, [unused_method] none) raises [TypeError] before the body is
    entered: the state, log included, is left as it was. *)
Theorem wrong_arity_TypeError (l : loc) (name : string) (n : nat)
    (args : list value) (s : state) :
  attribute_free s l → arity name = Some n → length args ≠ n →
  call_method (VObj l) name args s = (Raise TypeError, s).
Proof.
  intros Hl Hn Hlen. unfold arity in Hn.
  repeat case_decide; simplify_eq;
    (erewrite call_method_class; [| exact Hl | reflexivity]);
    repeat (destruct args as [| ? args]; try reflexivity);
    simpl in Hlen; congruence.
Qed.

Lemma wrong_arity_TypeError_witness :
  attribute_free final 0%nat ∧
  arity "add" = Some 2%nat ∧
  length [VInt 1] ≠ 2%nat ∧
  call_method (VObj 0%nat) "add" [VInt 1] final = (Raise TypeError, final).
Proof.
  split; [vm_compute; reflexivity |].
  split; [reflexivity |].
  split; [simpl; lia |].
  apply (wrong_arity_TypeError 0%nat "add" 2%nat [VInt 1] final);
    [vm_compute; reflexivity | reflexivity | simpl; lia].
Defined.

(** *** Counting of the calls *)

(** X7: a call of a method of the class with the right number of arguments
    is counted once, under its own name and under no other, whether the
    body returns or raises. *)
Theorem call_counted_once (l : loc) (name other : string) (n : nat)
    (args : list value) (s : state) :
  attribute_free s l → arity name = Some n → length args = n →
  other ≠ name →
  calls (snd (call_method (VObj l) name args s)) = (calls s ++ [name])%list ∧
  invocations name (snd (call_method (VObj l) name args s))
    = S (invocations name s) ∧
  invocations other (snd (call_method (VObj l) name args s))
    = invocations other s.
Proof.
  intros Hl Hn Hlen Hne.
  assert (Hcalls :
    calls (snd (call_method (VObj l) name args s)) = (calls s ++ [name])%list).
  { unfold arity in Hn.
    repeat case_decide; simplify_eq;
      (erewrite call_method_class; [| exact Hl | reflexivity]);
      repeat (destruct args as [| ? args]; try discriminate);
      reflexivity. }
  split; [exact Hcalls |].
  unfold invocations. rewrite Hcalls, !filter_app, !length_app.
  rewrite (filter_cons_True _ name) by reflexivity.
  rewrite (filter_cons_False _ name) by (intros ->; apply Hne; reflexivity).
  simpl. split; lia.
Qed.

Lemma call_counted_once_witness :
  attribute_free final 0%nat ∧
  arity "add" = Some 2%nat ∧
  length [VStr "a"; VInt 1] = 2%nat ∧
  "multiply" ≠ "add" ∧
  calls (snd (call_method (VObj 0%nat) "add" [VStr "a"; VInt 1] final))
    = (calls final ++ ["add"])%list ∧
  invocations "add" (snd (call_method (VObj 0%nat) "add" [VStr "a"; VInt 1] final))
    = S (invocations "add" final) ∧
  invocations "multiply"
      (snd (call_method (VObj 0%nat) "add" [VStr "a"; VInt 1] final))
    = invocations "multiply" final.
Proof.
  split; [vm_compute; reflexivity |].
  split; [reflexivity |]. split; [reflexivity |].
  split; [discriminate |].
  apply (call_counted_once 0%nat "add" "multiply" 2%nat
           [VStr "a"; VInt 1] final);
    [vm_compute; reflexivity | reflexivity | reflexivity | discriminate].
Defined.

(** *** The constructor *)



(** *** What the module body leaves alone *)

(** X9: from any starting state the module body binds [Calculator] to the
    class and [calc] to a new instance, the only one it allocates, and
    leaves every global other than the seven names it binds, and every
    instance that existed, as they were. *)
Theorem module_body_frame (s0 : state) (x : string) :
  x ∉ script_names →
  globals (snd (module_body s0)) !! x = globals s0 !! x ∧
  globals (snd (module_body s0)) !! "Calculator" = Some VClass ∧
  globals (snd (module_body s0)) !! "calc" = Some (VObj (length (heap s0))) ∧
  heap (snd (module_body s0)) = (heap s0 ++ [{| inst_dict := ∅ |}])%list.
Proof.
  intros Hx. rewrite module_body_run. cbn [snd].
  unfold script_names in Hx. rewrite !not_elem_of_cons in Hx.
  destruct Hx as (H1 & H2 & H3 & H4 & H5 & H6 & H7 & _).
  split; [simpl; rewrite !lookup_insert_ne by congruence; reflexivity |].
  split; [simpl; rewrite ?lookup_insert_ne by done; apply lookup_insert_eq |].
  split; [simpl; rewrite ?lookup_insert_ne by done; apply lookup_insert_eq |].
  reflexivity.
Qed.

Lemma module_body_frame_witness :
  ("__name__" ∉ script_names) ∧
  (globals (snd (module_body (bound "__name__" (VStr "__main__") initial)))
      !! "__name__")
    = (globals (bound "__name__" (VStr "__main__") initial) !! "__name__") ∧
  (globals (snd (module_body (bound "__name__" (VStr "__main__") initial)))
      !! "Calculator") = Some VClass ∧
  (globals (snd (module_body (bound "__name__" (VStr "__main__") initial)))
      !! "calc")
    = Some (VObj (length (heap (bound "__name__" (VStr "__main__") initial)))) ∧
  heap (snd (module_body (bound "__name__" (VStr "__main__") initial)))
    = (heap (bound "__name__" (VStr "__main__") initial)
         ++ [{| inst_dict := ∅ |}])%list.
Proof.
  assert (Hx : "__name__" ∉ script_names).
  { unfold script_names. rewrite !not_elem_of_cons.
    repeat split; try discriminate. apply not_elem_of_nil. }
  split; [exact Hx |].
  apply (module_body_frame (bound "__name__" (VStr "__main__") initial)
           "__name__" Hx).
Defined.



(** *** Histories of calls *)

(** A function of the class logs its entry at most once. *)
Lemma Calculator_dict_run_once (name : string) (f : list value → M value)
    (args : list value) :
  Calculator_dict name = Some f →
  ∃ (r : result value) (n : nat),
    (n ≤ 1)%nat ∧ ∀ s, f args s = (r, logged n name s).
Proof.
  unfold Calculator_dict. intros Hf.
  repeat case_decide; simplify_eq;
    repeat (destruct args as [| ? args];
            try (exists (Raise TypeError), 0%nat; split; [lia |]; intros s;
                 rewrite logged_0; reflexivity)).
  - exists (Ok (VStr "never called")), 1%nat. split; [lia | reflexivity].
  - eexists (PyNumber_Add _ _), 1%nat. split; [lia | reflexivity].
  - eexists (PyNumber_Multiply _ _), 1%nat. split; [lia | reflexivity].
Qed.

(** X11: a history of calls of the methods of the class on an instance
    without attributes, with any arguments and whether the calls return or
    raise, changes no global and no instance; the log only grows, by at
    most one entry a call. *)
Theorem history_frame (l : loc) (h : list (string * list value))
    (s : state) :
  attribute_free s l → own_calls h = true →
  globals (replay (VObj l) h s) = globals s ∧
  heap (replay (VObj l) h s) = heap s ∧
  (∃ new, calls (replay (VObj l) h s) = (calls s ++ new)%list ∧
          (length new ≤ length h)%nat).
Proof.
  intros Hl Hh.
  destruct (replay_frame l h s Hl Hh) as [Hg Hp].
  split; [exact Hg |]. split; [exact Hp |].
  clear Hg Hp. revert s Hl Hh.
  induction h as [| [name args] h IH]; intros s Hl Hh; cbn [replay].
  - exists []. rewrite app_nil_r. split; [reflexivity | simpl; lia].
  - apply andb_true_iff in Hh as [Hd Hh]. cbn [fst] in Hd.
    destruct (defines_Some name Hd) as [f Hf].
    destruct (Calculator_dict_run_once name f (VObj l :: args) Hf)
      as (r & n & Hn & Hrun).
    rewrite (call_method_class _ _ _ _ f Hl Hf), Hrun. cbn [snd].
    destruct (IH (logged n name s)) as (new & Hnew & Hlen);
      [apply attribute_free_logged, Hl | exact Hh |].
    exists (replicate n name ++ new)%list. split.
    + rewrite Hnew. simpl. rewrite <- app_assoc. reflexivity.
    + rewrite length_app, length_replicate. simpl. lia.
Qed.

Lemma history_frame_witness :
  attribute_free final 0%nat ∧
  own_calls [("add", [VNone; VNone]); ("multiply", [])] = true ∧
  globals (replay (VObj 0%nat) [("add", [VNone; VNone]); ("multiply", [])] final)
    = globals final ∧
  heap (replay (VObj 0%nat) [("add", [VNone; VNone]); ("multiply", [])] final)
    = heap final ∧
  (∃ new,
     calls (replay (VObj 0%nat) [("add", [VNone; VNone]); ("multiply", [])] final)
       = (calls final ++ new)%list ∧
     (length new ≤ length [("add", [VNone; VNone]); ("multiply", @nil value)])%nat).
Proof.
  split; [vm_compute; reflexivity |].
  split; [reflexivity |].
  apply (history_frame 0%nat [("add", [VNone; VNone]); ("multiply", [])] final);
    [vm_compute; reflexivity | reflexivity].
Defined.

(** *** Strings *)

Lemma append_cons (c : Ascii.ascii) (x y : string) :
  String c x +:+ y = String c (x +:+ y).
Proof. reflexivity. Qed.

Lemma append_assoc (x y z : string) : (x +:+ y) +:+ z = x +:+ (y +:+ z).
Proof.
  induction x as [| c x IH]; [reflexivity |].
  rewrite !append_cons, IH. reflexivity.
Qed.

Lemma append_nil_r (x : string) : x +:+ "" = x.
Proof.
  induction x as [| c x IH]; [reflexivity |].
  rewrite append_cons, IH. reflexivity.
Qed.

Lemma length_append (x y : string) :
  String.length (x +:+ y) = (String.length x + String.length y)%nat.
Proof.
  induction x as [| c x IH]; [reflexivity |].
  rewrite append_cons. simpl. rewrite IH. reflexivity.
Qed.



(** X12: on strings [add] is concatenation: it is associative, the empty
    string is neutral on both sides, and the length of the result is the
    sum of the lengths. *)
Theorem str_concat_laws (self : value) (s : state) (x y z : string) :
  (v ← add self (VStr x) (VStr y); add self v (VStr z)) s
    = (w ← add self (VStr y) (VStr z); add self (VStr x) w) s ∧
  add self (VStr "") (VStr x) s = (Ok (VStr x), s) ∧
  add self (VStr x) (VStr "") s = (Ok (VStr x), s) ∧
  ∃ r, add self (VStr x) (VStr y) s = (Ok (VStr r), s) ∧
       String.length r = (String.length x + String.length y)%nat.
Proof.
  split.
  { unfold mbind, M_bind, add, lift.
    change (PyNumber_Add (VStr x) (VStr y)) with (Ok (VStr (x +:+ y))).
    change (PyNumber_Add (VStr y) (VStr z)) with (Ok (VStr (y +:+ z))).
    cbv beta iota delta [Ok].
    change (PyNumber_Add (VStr (x +:+ y)) (VStr z))
      with (Ok (VStr ((x +:+ y) +:+ z))).
    change (PyNumber_Add (VStr x) (VStr (y +:+ z)))
      with (Ok (VStr (x +:+ (y +:+ z)))).
    rewrite append_assoc. reflexivity. }
  split; [reflexivity |].
  split.
  { rewrite add_run.
    change (PyNumber_Add (VStr x) (VStr "")) with (Ok (VStr (x +:+ ""))).
    rewrite append_nil_r. reflexivity. }
  exists (x +:+ y). split; [reflexivity | apply length_append].
Qed.









(** *** Ints that convert without rounding *)

Lemma digits2_pos_bounds (m : positive) :
  2 ^ (Z.pos (digits2_pos m) - 1) ≤ Z.pos m < 2 ^ Z.pos (digits2_pos m).
Proof.
  induction m as [m IH | m IH |]; cbn [digits2_pos].
  - rewrite Pos2Z.inj_succ.
    replace (Z.succ (Z.pos (digits2_pos m)) - 1)
      with (Z.succ (Z.pos (digits2_pos m) - 1)) by lia.
    rewrite !Z.pow_succ_r by lia. lia.
  - rewrite Pos2Z.inj_succ.
    replace (Z.succ (Z.pos (digits2_pos m)) - 1)
      with (Z.succ (Z.pos (digits2_pos m) - 1)) by lia.
    rewrite !Z.pow_succ_r by lia. lia.
  - simpl. lia.
Qed.

Lemma iter_xO_val (m k : positive) :
  Z.pos (Pos.iter xO m k) = Z.pos m * 2 ^ Z.pos k.
Proof.
  revert m. induction k as [| k IH] using Pos.peano_ind; intros m.
  - simpl. lia.
  - rewrite Pos.iter_succ, Pos2Z.inj_succ, Z.pow_succ_r by lia.
    rewrite Pos2Z.inj_xO, IH. lia.
Qed.

Lemma iter_xO_digits (m k : positive) :
  digits2_pos (Pos.iter xO m k) = (digits2_pos m + k)%positive.
Proof.
  induction k as [| k IH] using Pos.peano_ind.
  - simpl. lia.
  - rewrite Pos.iter_succ. cbn [digits2_pos]. rewrite IH. lia.
Qed.

(** A mantissa of full width at an exponent in range is not shifted. *)
Lemma shr_fexp_exact (mz : positive) (ez : Z) :
  Z.pos (digits2_pos mz) = 53 → -1074 ≤ ez →
  shr_fexp 53 1024 (Z.pos mz) ez loc_Exact
    = ({| shr_m := Z.pos mz; shr_r := false; shr_s := false |}, ez).
Proof.
  intros Hd He. unfold shr_fexp. cbn [Zdigits2 shr_record_of_loc].
  replace (fexp 53 1024 (Z.pos (digits2_pos mz) + ez) - ez) with 0
    by (unfold fexp, emin; lia).
  reflexivity.
Qed.

Lemma binary_round_aux_exact (sx : bool) (mz : positive) (ez : Z) :
  Z.pos (digits2_pos mz) = 53 → -1074 ≤ ez ≤ 971 →
  binary_round_aux 53 1024 sx (Z.pos mz) ez loc_Exact = S754_finite sx mz ez.
Proof.
  intros Hd He. unfold binary_round_aux.
  rewrite shr_fexp_exact by lia.
  cbn [shr_m loc_of_shr_record round_nearest_even].
  rewrite shr_fexp_exact by lia. cbn [shr_m].
  destruct (Z.leb_spec ez (1024 - 53)); [reflexivity | lia].
Qed.

(** A positive integer below [2 ** 53] is rounded to itself: the mantissa is
    the integer shifted to full width. *)
Lemma binary_round_small (sx : bool) (m : positive) :
  Z.pos m < 2 ^ 53 →
  ∃ mz ez,
    binary_round DBL_MANT_DIG DBL_MAX_EXP sx m 0 = S754_finite sx mz ez ∧
    ez ≤ 0 ∧ Z.pos mz = Z.pos m * 2 ^ (- ez).
Proof.
  intros Hm.
  pose proof (digits2_pos_bounds m) as [Hlo Hhi].
  assert (Hd : Z.pos (digits2_pos m) ≤ 53).
  { destruct (Z.le_gt_cases (Z.pos (digits2_pos m)) 53) as [H | H];
      [exact H |].
    assert (2 ^ 53 ≤ 2 ^ (Z.pos (digits2_pos m) - 1))
      by (apply Z.pow_le_mono_r; lia).
    lia. }
  unfold binary_round, DBL_MANT_DIG, DBL_MAX_EXP.
  assert (Hfexp : fexp 53 1024 (Z.pos (digits2_pos m) + 0)
                  = Z.pos (digits2_pos m) - 53).
  { unfold fexp, emin. lia. }
  rewrite Hfexp. unfold shl_align.
  destruct (Z.pos (digits2_pos m) - 53 - 0) as [| p | p] eqn:Hp; try lia.
  - exists m, 0. rewrite binary_round_aux_exact by lia.
    split; [reflexivity |]. split; [lia |]. simpl. lia.
  - exists (Pos.iter xO m p), (Z.pos (digits2_pos m) - 53).
    rewrite binary_round_aux_exact.
    + split; [reflexivity |]. split; [lia |].
      rewrite iter_xO_val. f_equal. f_equal. lia.
    + rewrite iter_xO_digits. lia.
    + lia.
Qed.

Lemma PyLong_AsDouble_small (n : Z) :
  Z.abs n < 2 ^ 53 →
  ∃ f, PyLong_AsDouble n = Ok f ∧ int_float_eq n f = true ∧
       float_plus f pos_zero = f.
Proof.
  intros Hn. unfold PyLong_AsDouble, binary_normalize.
  destruct n as [| m | m].
  - exists (S754_zero false). repeat split.
  - destruct (binary_round_small false m) as (mz & ez & -> & Hez & Hmz);
      [lia |].
    exists (S754_finite false mz ez). split; [reflexivity |].
    split; [| reflexivity]. unfold int_float_eq.
    destruct (Z.leb_spec 0 ez).
    + replace ez with 0 in * by lia. simpl in Hmz. apply Z.eqb_eq. lia.
    + apply Z.eqb_eq. lia.
  - destruct (binary_round_small true m) as (mz & ez & -> & Hez & Hmz);
      [lia |].
    exists (S754_finite true mz ez). split; [reflexivity |].
    split; [| reflexivity]. unfold int_float_eq.
    destruct (Z.leb_spec 0 ez).
    + replace ez with 0 in * by lia. simpl in Hmz. apply Z.eqb_eq. lia.
    + apply Z.eqb_eq. lia.
Qed.

(** X15: an int of magnitude below [2 ** 53] converts to a float without
    rounding.  With any float, on either side, [add] and [multiply] return a
    float and do not raise, and [add(n, 0.0)] is a float equal to [n] under
    [==]. *)
Theorem small_int_exact (self : value) (s : state) (n : Z)
    (y : spec_float) :
  Z.abs n < 2 ^ 53 →
  in_float_range (VInt n) (VFloat y) = true ∧
  (∃ v, add self (VInt n) (VFloat y) s = (Ok (VFloat v), s)) ∧
  (∃ v, add self (VFloat y) (VInt n) s = (Ok (VFloat v), s)) ∧
  (∃ v, multiply self (VInt n) (VFloat y) s = (Ok (VFloat v), s)) ∧
  (∃ v, multiply self (VFloat y) (VInt n) s = (Ok (VFloat v), s)) ∧
  (∃ f, add self (VInt n) (VFloat pos_zero) s = (Ok (VFloat f), s) ∧
        py_eq (VFloat f) (VInt n) = true).
Proof.
  intros Hn.
  destruct (PyLong_AsDouble_small n Hn) as (f & Hf & Heq & Hzero).
  rewrite !add_run, !multiply_run.
  rewrite !add_int_float, add_float_int, mul_int_float, mul_float_int.
  unfold in_float_range, fits_double. rewrite Hf.
  split; [reflexivity |].
  do 4 (split; [eexists; reflexivity |]).
  exists f. split; [| exact Heq].
  cbv beta iota delta [Ok]. rewrite Hzero. reflexivity.
Qed.

Lemma small_int_exact_witness :
  Z.abs (- 9007199254740991) < 2 ^ 53 ∧
  in_float_range (VInt (- 9007199254740991)) (VFloat one) = true ∧
  (∃ v, add calc (VInt (- 9007199254740991)) (VFloat one) final
          = (Ok (VFloat v), final)) ∧
  (∃ v, add calc (VFloat one) (VInt (- 9007199254740991)) final
          = (Ok (VFloat v), final)) ∧
  (∃ v, multiply calc (VInt (- 9007199254740991)) (VFloat one) final
          = (Ok (VFloat v), final)) ∧
  (∃ v, multiply calc (VFloat one) (VInt (- 9007199254740991)) final
          = (Ok (VFloat v), final)) ∧
  (∃ f, add calc (VInt (- 9007199254740991)) (VFloat pos_zero) final
          = (Ok (VFloat f), final) ∧
        py_eq (VFloat f) (VInt (- 9007199254740991)) = true).
Proof.
  split; [vm_compute; reflexivity |].
  apply (small_int_exact calc final (- 9007199254740991) one).
  vm_compute; reflexivity.
Defined.

(** *** Floats are not a ring *)

(** X16: on floats [add] is not associative: there are doubles [x], [y],
    [z] for which [add(add(x, y), z)] and [add(x, add(y, z))] both return
    and the results are not equal under [==]; the laws of X1 are laws of
    the ints. *)
Theorem float_add_not_associative (self : value) (s : state) :
  ∃ x y z v w,
    valid_binary DBL_MANT_DIG DBL_MAX_EXP x = true ∧
    valid_binary DBL_MANT_DIG DBL_MAX_EXP y = true ∧
    valid_binary DBL_MANT_DIG DBL_MAX_EXP z = true ∧
    (p ← add self (VFloat x) (VFloat y); add self p (VFloat z)) s
      = (Ok v, s) ∧
    (q ← add self (VFloat y) (VFloat z); add self (VFloat x) q) s
      = (Ok w, s) ∧
    py_eq v w = false.
Proof.
  exists (S754_finite false (2 ^ 52) 1), one, one,
         (VFloat (S754_finite false (2 ^ 52) 1)),
         (VFloat (S754_finite false (2 ^ 52 + 1) 1)).
  repeat split.
Qed.

End Extras.
